(** * Stopwatch_Design: the timekeeping state machine of main.c

    A shallow embedding of [src/Stopwatch_Design/main.c]: the file-scope
    [static uint8_t] variables become one record, every interrupt handler
    becomes a function from record to record, and an interrupt is taken to
    run to completion before the next one starts. *)

From Stdlib Require Import ZArith List Lia Bool.
Import ListNotations.
Local Open Scope Z_scope.

(** ** Machine integers *)

(** [uint8_t]: a value is a [Z] in [0, 255]; a store truncates. *)
Definition is_uint8 (z : Z) : Prop := 0 <= z <= 255.

Definition to_uint8 (z : Z) : Z := z mod 256.

(** ** The indicator *)

(** Modelled from the spec: [RGB_LED_Output] and the colour constants
    [RGB_LED_OFF], [RGB_LED_RED], [RGB_LED_GREEN] come from GPIO.h, which is
    not part of the sources. The spec calls them the off, stopped and
    running colours of a write-only output, so the constants are symbolic
    and the output is the log of the values written, newest first. *)
Inductive rgb_color : Type :=
  | RGB_LED_OFF
  | RGB_LED_RED
  | RGB_LED_GREEN.

(** ** The global variables (main.c, lines 39-61) *)

Record state : Type := mkState {
  counter : Z;
  ms_elapsed : Z;
  milliseconds : Z;
  seconds : Z;
  minutes : Z;
  start_stopwatch : Z;
  reset_stopwatch : Z;
  rgb_led : list rgb_color
}.

(** Every variable starts at 0; nothing has been written to the LED. *)
Definition init : state := mkState 0 0 0 0 0 0 0 [].

Definition set_counter (v : Z) (s : state) : state :=
  mkState v (ms_elapsed s) (milliseconds s) (seconds s) (minutes s)
          (start_stopwatch s) (reset_stopwatch s) (rgb_led s).

Definition set_ms_elapsed (v : Z) (s : state) : state :=
  mkState (counter s) v (milliseconds s) (seconds s) (minutes s)
          (start_stopwatch s) (reset_stopwatch s) (rgb_led s).

Definition set_milliseconds (v : Z) (s : state) : state :=
  mkState (counter s) (ms_elapsed s) v (seconds s) (minutes s)
          (start_stopwatch s) (reset_stopwatch s) (rgb_led s).

Definition set_seconds (v : Z) (s : state) : state :=
  mkState (counter s) (ms_elapsed s) (milliseconds s) v (minutes s)
          (start_stopwatch s) (reset_stopwatch s) (rgb_led s).

Definition set_minutes (v : Z) (s : state) : state :=
  mkState (counter s) (ms_elapsed s) (milliseconds s) (seconds s) v
          (start_stopwatch s) (reset_stopwatch s) (rgb_led s).

Definition set_start_stopwatch (v : Z) (s : state) : state :=
  mkState (counter s) (ms_elapsed s) (milliseconds s) (seconds s) (minutes s)
          v (reset_stopwatch s) (rgb_led s).

Definition set_reset_stopwatch (v : Z) (s : state) : state :=
  mkState (counter s) (ms_elapsed s) (milliseconds s) (seconds s) (minutes s)
          (start_stopwatch s) v (rgb_led s).

Definition RGB_LED_Output (c : rgb_color) (s : state) : state :=
  mkState (counter s) (ms_elapsed s) (milliseconds s) (seconds s) (minutes s)
          (start_stopwatch s) (reset_stopwatch s) (c :: rgb_led s).

(** Every variable holds a [uint8_t]. *)
Definition well_typed (s : state) : Prop :=
  is_uint8 (counter s) /\ is_uint8 (ms_elapsed s) /\
  is_uint8 (milliseconds s) /\ is_uint8 (seconds s) /\
  is_uint8 (minutes s) /\ is_uint8 (start_stopwatch s) /\
  is_uint8 (reset_stopwatch s).

(** ** PMOD_BTN_Handler (main.c, lines 108-148) *)

Definition PMOD_BTN_Handler (pmod_btn_status : Z) (s : state) : state :=
  if pmod_btn_status =? 0x04 then
    let s := RGB_LED_Output RGB_LED_GREEN s in
    set_start_stopwatch 0x01 s
  else if pmod_btn_status =? 0x08 then
    let s := RGB_LED_Output RGB_LED_RED s in
    set_start_stopwatch 0x00 s
  else if pmod_btn_status =? 0x10 then
    let s := RGB_LED_Output RGB_LED_OFF s in
    set_reset_stopwatch 0x01 s
  else if pmod_btn_status =? 0x20 then
    s
  else
    s.

(** ** EduBase_Button_Handler (main.c, lines 162-197) *)

Definition EduBase_Button_Handler (edubase_button_status : Z) (s : state) : state :=
  if edubase_button_status =? 0x08 then
    if counter s >=? 15 then set_counter 0 s
    else set_counter (to_uint8 (counter s + 1)) s
  else if edubase_button_status =? 0x04 then
    if counter s <=? 0 then set_counter 15 s
    else set_counter (to_uint8 (counter s - 1)) s
  else
    s.

(** ** Timer_0A_Periodic_Task (main.c, lines 236-282) *)

Definition Timer_0A_Periodic_Task (s : state) : state :=
  let s :=
    if start_stopwatch s =? 0x01 then
      let s := set_ms_elapsed (to_uint8 (ms_elapsed s + 1)) s in
      if ms_elapsed s >? 99 then
        let s := set_ms_elapsed 0 s in
        let s := set_milliseconds (to_uint8 (milliseconds s + 1)) s in
        if milliseconds s >? 9 then
          let s := set_milliseconds 0 s in
          let s := set_seconds (to_uint8 (seconds s + 1)) s in
          if seconds s >? 59 then
            let s := set_seconds 0 s in
            let s := set_minutes (to_uint8 (minutes s + 1)) s in
            if minutes s >? 9 then set_minutes 0 s else s
          else s
        else s
      else s
    else s in
  if reset_stopwatch s =? 0x01 then
    let s := set_reset_stopwatch 0x00 s in
    let s := set_start_stopwatch 0x00 s in
    let s := set_ms_elapsed 0 s in
    let s := set_milliseconds 0 s in
    let s := set_seconds 0 s in
    set_minutes 0 s
  else s.

(** ** Calculate_Stopwatch_Value (main.c, lines 205-220) *)

(** [buf[i] = v] on a [uint8_t] array: the value is truncated; an index
    outside the array has no defined result. *)
Fixpoint store (buf : list Z) (i : nat) (v : Z) : option (list Z) :=
  match buf, i with
  | [], _ => None
  | _ :: tl, O => Some (to_uint8 v :: tl)
  | hd :: tl, S j =>
      match store tl j v with
      | Some tl' => Some (hd :: tl')
      | None => None
      end
  end.

Definition bind {A B : Type} (m : option A) (k : A -> option B) : option B :=
  match m with
  | Some a => k a
  | None => None
  end.

Notation "x <- m ;; k" := (bind m (fun x => k))
  (at level 61, m at next level, right associativity).

(** The function reads the globals and writes the caller's array; [%] and
    [/] are C's, which truncate towards zero. The state is returned as the
    body leaves it. *)
Definition Calculate_Stopwatch_Value (s : state) (stopwatch_value : list Z)
  : option (state * list Z) :=
  a <- store stopwatch_value 0 (milliseconds s) ;;
  a <- store a 1 (Z.rem (seconds s) 10) ;;
  a <- store a 2 (Z.quot (seconds s) 10) ;;
  a <- store a 3 (minutes s) ;;
  Some (s, a).

(** ** Interrupts *)

(** The three interrupt sources whose handlers main.c registers, with the
    status byte the two button drivers pass to their handler. *)
Inductive interrupt : Type :=
  | Timer_0A
  | PMOD_BTN (pmod_btn_status : Z)
  | EduBase_Button (edubase_button_status : Z).

Definition handle (s : state) (i : interrupt) : state :=
  match i with
  | Timer_0A => Timer_0A_Periodic_Task s
  | PMOD_BTN b => PMOD_BTN_Handler b s
  | EduBase_Button b => EduBase_Button_Handler b s
  end.

(** The state after a sequence of interrupts, oldest first. *)
Definition run (tr : list interrupt) (s : state) : state :=
  fold_left handle tr s.

(** [n] consecutive timer interrupts. *)
Definition ticks (n : N) (s : state) : state :=
  N.iter n Timer_0A_Periodic_Task s.

(** ** Derived views of the state *)

(** The ranges the comments at lines 52-54 give the stopwatch digits, and
    the range [ms_elapsed] is kept in. *)
Definition in_range (s : state) : Prop :=
  0 <= ms_elapsed s <= 99 /\ 0 <= milliseconds s <= 9 /\
  0 <= seconds s <= 59 /\ 0 <= minutes s <= 9.

(** The four counters. *)
Definition counters (s : state) : Z * Z * Z * Z :=
  (ms_elapsed s, milliseconds s, seconds s, minutes s).

(** The four counters and the two flags. *)
Definition timekeeping (s : state) : Z * Z * Z * Z * Z * Z :=
  (ms_elapsed s, milliseconds s, seconds s, minutes s,
   start_stopwatch s, reset_stopwatch s).

(** Timer interrupts counted by the counters since they were last all 0. *)
Definition elapsed (s : state) : Z :=
  ms_elapsed s + 100 * milliseconds s + 1000 * seconds s + 60000 * minutes s.

(** The counters that show [t] timer interrupts. *)
Definition digits_of (t : Z) : Z * Z * Z * Z :=
  (t mod 100, (t / 100) mod 10, (t / 1000) mod 60, (t / 60000) mod 10).

(** The colour the LED shows: the last one written, if any. *)
Definition indicator (s : state) : option rgb_color := hd_error (rgb_led s).

(** ** Kinds of interrupt *)

Definition is_EduBase_Button (i : interrupt) : bool :=
  match i with
  | EduBase_Button _ => true
  | _ => false
  end.

Definition is_Timer_0A (i : interrupt) : bool :=
  match i with
  | Timer_0A => true
  | _ => false
  end.

(** [n] presses of the EduBase button with status byte [b]. *)
Definition presses (b : Z) (n : N) (s : state) : state :=
  N.iter n (EduBase_Button_Handler b) s.

(** ** main (main.c, lines 63-94) *)

(** What [main] owns besides the globals: its local array and, for the
    display driver, the frames handed to it, newest first. *)
Record main_state : Type := mkMain {
  globals : state;
  stopwatch_value : list Z;
  display : list (list Z)
}.

(** Modelled from the spec: [Seven_Segment_Display_Stopwatch] comes from
    Seven_Segment_Display.h, which is not part of the sources. The spec
    makes it a render operation that receives the 4-element digit sequence
    once per iteration; it is modelled as recording the array it is given. *)
Definition Seven_Segment_Display_Stopwatch (a : list Z) (m : main_state)
  : main_state :=
  mkMain (globals m) (stopwatch_value m) (a :: display m).

(** The state when the [while (1)] loop is entered: the initialisation
    calls configure hardware only, and the array is [{0}]. *)
Definition main_init : main_state := mkMain init [0; 0; 0; 0] [].

(** One iteration of the loop body. *)
Definition main_loop_body (m : main_state) : option main_state :=
  r <- Calculate_Stopwatch_Value (globals m) (stopwatch_value m) ;;
  let m := mkMain (fst r) (snd r) (display m) in
  Some (Seven_Segment_Display_Stopwatch (stopwatch_value m) m).

(** The interrupts [tr] taken while [main] is between two iterations. *)
Definition preempt (tr : list interrupt) (m : main_state) : main_state :=
  mkMain (run tr (globals m)) (stopwatch_value m) (display m).

(** The loop never ends; this is its prefix of [length trs] iterations,
    the [k]-th iteration preceded by the interrupts [nth k trs]. *)
Fixpoint main_loop (trs : list (list interrupt)) (m : main_state)
  : option main_state :=
  match trs with
  | [] => Some m
  | tr :: rest =>
      m' <- main_loop_body (preempt tr m) ;;
      main_loop rest m'
  end.

(** A frame the display can show: four digits, the tens of seconds at
    most 5. *)
Definition valid_frame (a : list Z) : Prop :=
  match a with
  | [d0; d1; d2; d3] =>
      0 <= d0 <= 9 /\ 0 <= d1 <= 9 /\ 0 <= d2 <= 5 /\ 0 <= d3 <= 9
  | _ => False
  end.

(** [Calculate_Stopwatch_Value] with interrupts taken between its four
    statements: [i1] after the first, [i2] after the second, [i3] after the
    third. *)
Definition Calculate_Stopwatch_Value_preempted
  (i1 i2 i3 : list interrupt) (s : state) (stopwatch_value : list Z)
  : option (state * list Z) :=
  a <- store stopwatch_value 0 (milliseconds s) ;;
  let s := run i1 s in
  a <- store a 1 (Z.rem (seconds s) 10) ;;
  let s := run i2 s in
  a <- store a 2 (Z.quot (seconds s) 10) ;;
  let s := run i3 s in
  a <- store a 3 (minutes s) ;;
  Some (s, a).

(** ** A reference stopwatch *)

(** What the handlers are meant to implement, as one number: the time in
    timer periods modulo ten minutes, whether it is running, and whether a
    reset is waiting for the next timer period. This is a reference to
    compare the code with, not a translation of it. *)
Record stopwatch : Type := mkStopwatch {
  time : Z;
  running : bool;
  reset_pending : bool
}.

Definition stopwatch_step (a : stopwatch) (i : interrupt) : stopwatch :=
  match i with
  | Timer_0A =>
      if reset_pending a then mkStopwatch 0 false false
      else if running a then mkStopwatch ((time a + 1) mod 600000) true false
      else a
  | PMOD_BTN b =>
      if b =? 0x04 then mkStopwatch (time a) true (reset_pending a)
      else if b =? 0x08 then mkStopwatch (time a) false (reset_pending a)
      else if b =? 0x10 then mkStopwatch (time a) (running a) true
      else a
  | EduBase_Button _ => a
  end.

Definition stopwatch_run (tr : list interrupt) (a : stopwatch) : stopwatch :=
  fold_left stopwatch_step tr a.

(** The code's variables show the reference stopwatch [a]. *)
Definition shows (s : state) (a : stopwatch) : Prop :=
  in_range s /\ elapsed s = time a /\
  start_stopwatch s = Z.b2z (running a) /\
  reset_stopwatch s = Z.b2z (reset_pending a).

(** * Proofs *)

(** ** Proof automation *)

(** A term that holds no comparison of its own. *)
Ltac no_test a :=
  lazymatch a with
  | context [Z.eqb] => fail
  | context [Z.gtb] => fail
  | context [Z.geb] => fail
  | context [Z.leb] => fail
  | context [Z.ltb] => fail
  | _ => idtac
  end.

(** Split on every comparison the handlers make, innermost first. *)
Ltac split_tests :=
  repeat (cbn beta iota;
          match goal with
          | |- context [?a =? ?b] =>
              no_test a; destruct (Z.eqb_spec a b)
          | |- context [?a >? ?b] =>
              no_test a; rewrite (Z.gtb_ltb a b); destruct (Z.ltb_spec b a)
          | |- context [?a >=? ?b] =>
              no_test a; rewrite (Z.geb_leb a b); destruct (Z.leb_spec b a)
          | |- context [?a <=? ?b] =>
              no_test a; destruct (Z.leb_spec a b)
          end).

(** Arithmetic with the truncation of a store written out. *)
Ltac arith :=
  unfold to_uint8, is_uint8 in *; Z.div_mod_to_equations; lia.

(** Open a handler on a state given field by field. *)
Ltac open_state s :=
  destruct s as [c e ms sec mi st rs led]; cbn in *.

Ltac run_handler :=
  cbv beta iota zeta delta
    [Timer_0A_Periodic_Task PMOD_BTN_Handler EduBase_Button_Handler
     set_counter set_ms_elapsed set_milliseconds set_seconds set_minutes
     set_start_stopwatch set_reset_stopwatch RGB_LED_Output
     counter ms_elapsed milliseconds seconds minutes
     start_stopwatch reset_stopwatch rgb_led
     in_range counters timekeeping elapsed].

(** ** Sanity checks on concrete runs *)

Example tick_from_init_stopped : Timer_0A_Periodic_Task init = init.
Proof. reflexivity. Qed.

Example ticks_250 :
  counters (ticks 250 (PMOD_BTN_Handler 0x04 init)) = (50, 2, 0, 0).
Proof. vm_compute. reflexivity. Qed.

(** The start/stop/reset scenario: start, 250 ticks, stop, 3 ticks, reset,
    one tick. *)
Example start_stop_reset_cycle :
  let s1 := ticks 250 (PMOD_BTN_Handler 0x04 init) in
  let s2 := ticks 3 (PMOD_BTN_Handler 0x08 s1) in
  let s3 := Timer_0A_Periodic_Task (PMOD_BTN_Handler 0x10 s2) in
  counters s2 = (50, 2, 0, 0) /\ start_stopwatch s2 = 0 /\
  counters s3 = (0, 0, 0, 0) /\ start_stopwatch s3 = 0 /\
  rgb_led s3 = [RGB_LED_OFF; RGB_LED_RED; RGB_LED_GREEN].
Proof. vm_compute. repeat split. Qed.

(** ** The handlers keep the variables typed and the counters in range *)

Lemma Timer_0A_Periodic_Task_in_range (s : state) :
  in_range s -> in_range (Timer_0A_Periodic_Task s).
Proof.
  open_state s. run_handler. intros H.
  split_tests; arith.
Qed.

Lemma PMOD_BTN_Handler_counters (b : Z) (s : state) :
  counters (PMOD_BTN_Handler b s) = counters s.
Proof.
  open_state s. run_handler. split_tests; reflexivity.
Qed.

Lemma EduBase_Button_Handler_timekeeping (b : Z) (s : state) :
  timekeeping (EduBase_Button_Handler b s) = timekeeping s.
Proof.
  open_state s. run_handler. split_tests; reflexivity.
Qed.

Lemma in_range_counters (s s' : state) :
  counters s' = counters s -> in_range s -> in_range s'.
Proof.
  unfold counters, in_range. intros E. injection E as -> -> -> ->. tauto.
Qed.

Lemma handle_in_range (s : state) (i : interrupt) :
  in_range s -> in_range (handle s i).
Proof.
  destruct i as [ | b | b ]; cbn [handle].
  - apply Timer_0A_Periodic_Task_in_range.
  - apply in_range_counters, PMOD_BTN_Handler_counters.
  - apply in_range_counters.
    pose proof (EduBase_Button_Handler_timekeeping b s) as E.
    unfold timekeeping in E. unfold counters. congruence.
Qed.

Lemma run_in_range (tr : list interrupt) :
  forall s, in_range s -> in_range (run tr s).
Proof.
  induction tr as [ | i tr IH ]; intros s H; cbn.
  - exact H.
  - apply IH, handle_in_range, H.
Qed.

Lemma handle_well_typed (s : state) (i : interrupt) :
  well_typed s -> well_typed (handle s i).
Proof.
  destruct i as [ | b | b ]; open_state s; unfold well_typed; run_handler;
    intros H; split_tests; cbn; arith.
Qed.

(** Every variable keeps holding a [uint8_t] value. *)
Lemma run_well_typed (tr : list interrupt) :
  forall s, well_typed s -> well_typed (run tr s).
Proof.
  induction tr as [ | i tr IH ]; intros s H; cbn.
  - exact H.
  - apply IH, handle_well_typed, H.
Qed.

Lemma init_well_typed : well_typed init.
Proof. cbv. intuition discriminate. Qed.

(** C1: in every state reached from the zero-initialised variables by any
    sequence of timer, PMOD button and EduBase button interrupts, each
    handler run to completion, [ms_elapsed] is in [0, 99], [milliseconds]
    in [0, 9], [seconds] in [0, 59] and [minutes] in [0, 9]. *)
Theorem counters_in_range_invariant (tr : list interrupt) :
  let s := run tr init in
  0 <= ms_elapsed s <= 99 /\ 0 <= milliseconds s <= 9 /\
  0 <= seconds s <= 59 /\ 0 <= minutes s <= 9.
Proof.
  apply (run_in_range tr init). cbv. intuition discriminate.
Qed.

(** ** One timer interrupt while the stopwatch runs *)

(** With the start flag set and no reset pending, a timer interrupt takes
    counters in range to counters in range, counts one more interrupt
    modulo the ten minutes the display holds, and touches nothing else. *)
Lemma tick_running (s : state) :
  in_range s -> start_stopwatch s = 1 -> reset_stopwatch s <> 1 ->
  let s' := Timer_0A_Periodic_Task s in
  in_range s' /\ elapsed s' = (elapsed s + 1) mod 600000 /\
  start_stopwatch s' = 1 /\ reset_stopwatch s' = reset_stopwatch s /\
  counter s' = counter s /\ rgb_led s' = rgb_led s.
Proof.
  open_state s. run_handler. intros H Hst Hrs. subst st.
  split_tests; try contradiction; repeat split; try arith.
Qed.

Lemma ticks_succ (n : N) (s : state) :
  ticks (N.succ n) s = Timer_0A_Periodic_Task (ticks n s).
Proof. unfold ticks. apply N.iter_succ. Qed.

Lemma ticks_running (n : N) (s : state) :
  in_range s -> start_stopwatch s = 1 -> reset_stopwatch s <> 1 ->
  let s' := ticks n s in
  in_range s' /\ elapsed s' = (elapsed s + Z.of_N n) mod 600000 /\
  start_stopwatch s' = 1 /\ reset_stopwatch s' = reset_stopwatch s /\
  counter s' = counter s /\ rgb_led s' = rgb_led s.
Proof.
  intros H Hst Hrs. cbv zeta.
  induction n as [ | n IH ] using N.peano_ind.
  - cbn. repeat split; try apply H; try assumption.
    unfold in_range, elapsed in *. Z.div_mod_to_equations. lia.
  - rewrite ticks_succ.
    destruct IH as (Hr & He & Hs & Hq & Hc & Hl).
    assert (Hq' : reset_stopwatch (ticks n s) <> 1) by congruence.
    destruct (tick_running (ticks n s) Hr Hs Hq') as (Hr1 & He1 & Hs1 & Hq1 & Hc1 & Hl1).
    repeat split; try apply Hr1; try congruence.
    rewrite He1, He, N2Z.inj_succ.
    rewrite Zplus_mod_idemp_l. f_equal. lia.
Qed.

(** Counters in range are the digits of the interrupt count. *)
Lemma in_range_digits (s : state) :
  in_range s ->
  ms_elapsed s = elapsed s mod 100 /\
  milliseconds s = (elapsed s / 100) mod 10 /\
  seconds s = (elapsed s / 1000) mod 60 /\
  minutes s = (elapsed s / 60000) mod 10.
Proof.
  open_state s. run_handler. intros H.
  repeat split; Z.div_mod_to_equations; lia.
Qed.

(** After [n] timer interrupts from cleared counters, with the start flag
    set and no reset pending, the counters are the digits of [n] modulo ten
    minutes. *)
Lemma ticks_from_zero (n : N) (s : state) :
  counters s = (0, 0, 0, 0) ->
  start_stopwatch s = 1 -> reset_stopwatch s <> 1 ->
  let t := Z.of_N n mod 600000 in
  counters (ticks n s) = (t mod 100, (t / 100) mod 10, (t / 1000) mod 60, (t / 60000) mod 10).
Proof.
  intros Hc Hst Hrs. cbv zeta.
  assert (Hr : in_range s).
  { unfold counters in Hc. unfold in_range. injection Hc as -> -> -> ->. lia. }
  assert (He : elapsed s = 0).
  { unfold counters in Hc. unfold elapsed. injection Hc as -> -> -> ->. reflexivity. }
  destruct (ticks_running n s Hr Hst Hrs) as (Hr' & He' & _).
  rewrite He in He'. cbn [Z.add] in He'.
  destruct (in_range_digits _ Hr') as (H1 & H2 & H3 & H4).
  unfold counters. rewrite <- He'. congruence.
Qed.

(** C2: from cleared counters with [start_stopwatch] set and
    [reset_stopwatch] clear, 100 timer interrupts give [milliseconds = 1]
    and the other counters 0; 1000 give [seconds = 1], [milliseconds = 0];
    60000 give [minutes = 1], [seconds = 0], [milliseconds = 0]; 600000
    give [minutes = 0], [seconds = 0], [milliseconds = 0]. *)
Theorem carry_correctness (s : state) :
  counters s = (0, 0, 0, 0) ->
  start_stopwatch s = 1 -> reset_stopwatch s = 0 ->
  counters (ticks 100 s) = (0, 1, 0, 0) /\
  counters (ticks 1000 s) = (0, 0, 1, 0) /\
  counters (ticks 60000 s) = (0, 0, 0, 1) /\
  counters (ticks 600000 s) = (0, 0, 0, 0).
Proof.
  intros Hc Hst Hrs.
  assert (Hrs' : reset_stopwatch s <> 1) by lia.
  repeat split.
  - exact (ticks_from_zero 100 s Hc Hst Hrs').
  - exact (ticks_from_zero 1000 s Hc Hst Hrs').
  - exact (ticks_from_zero 60000 s Hc Hst Hrs').
  - exact (ticks_from_zero 600000 s Hc Hst Hrs').
Qed.

Lemma carry_correctness_witness :
  let s := PMOD_BTN_Handler 0x04 init in
  counters (ticks 100 s) = (0, 1, 0, 0) /\
  counters (ticks 1000 s) = (0, 0, 1, 0) /\
  counters (ticks 60000 s) = (0, 0, 0, 1) /\
  counters (ticks 600000 s) = (0, 0, 0, 0).
Proof.
  apply (carry_correctness (PMOD_BTN_Handler 0x04 init)); reflexivity.
Defined.

(** ** Reset *)

(** C3: whatever the counters and [start_stopwatch] hold, a timer interrupt
    that finds [reset_stopwatch] set leaves the four counters at 0 and both
    flags clear, and the timer interrupt after it changes nothing. *)
Theorem reset_priority_idempotent (s : state) :
  reset_stopwatch s = 1 ->
  let s1 := Timer_0A_Periodic_Task s in
  counters s1 = (0, 0, 0, 0) /\
  start_stopwatch s1 = 0 /\ reset_stopwatch s1 = 0 /\
  Timer_0A_Periodic_Task s1 = s1.
Proof.
  open_state s. intros ->. run_handler.
  split_tests; try contradiction; repeat split.
Qed.

Lemma reset_priority_idempotent_witness :
  let s := mkState 11 42 7 45 3 1 1 [RGB_LED_OFF; RGB_LED_GREEN] in
  let s1 := Timer_0A_Periodic_Task s in
  counters s1 = (0, 0, 0, 0) /\
  start_stopwatch s1 = 0 /\ reset_stopwatch s1 = 0 /\
  Timer_0A_Periodic_Task s1 = s1.
Proof.
  apply (reset_priority_idempotent
           (mkState 11 42 7 45 3 1 1 [RGB_LED_OFF; RGB_LED_GREEN])).
  reflexivity.
Defined.

(** C10: when BTN2 (reset) and then BTN0 (start) are pressed before the
    next timer interrupt, that interrupt still clears the four counters and
    leaves [start_stopwatch] clear: the start is lost. *)
Theorem pending_reset_overrides_start (s : state) :
  let s' := Timer_0A_Periodic_Task
              (PMOD_BTN_Handler 0x04 (PMOD_BTN_Handler 0x10 s)) in
  counters s' = (0, 0, 0, 0) /\
  start_stopwatch s' = 0 /\ reset_stopwatch s' = 0.
Proof.
  open_state s. run_handler.
  split_tests; try contradiction; try discriminate; repeat split.
Qed.

(** ** The PMOD buttons *)

(** C5: BTN0 (0x04) sets [start_stopwatch] and writes green to the LED;
    BTN1 (0x08) clears [start_stopwatch] and writes red; BTN2 (0x10) sets
    [reset_stopwatch] and writes off; BTN3 (0x20) changes nothing; any
    other status byte changes nothing, the LED included. *)
Theorem PMOD_BTN_Handler_mapping (s : state) (b : Z) :
  (start_stopwatch (PMOD_BTN_Handler 0x04 s) = 1 /\
   rgb_led (PMOD_BTN_Handler 0x04 s) = RGB_LED_GREEN :: rgb_led s) /\
  (start_stopwatch (PMOD_BTN_Handler 0x08 s) = 0 /\
   rgb_led (PMOD_BTN_Handler 0x08 s) = RGB_LED_RED :: rgb_led s) /\
  (reset_stopwatch (PMOD_BTN_Handler 0x10 s) = 1 /\
   rgb_led (PMOD_BTN_Handler 0x10 s) = RGB_LED_OFF :: rgb_led s) /\
  PMOD_BTN_Handler 0x20 s = s /\
  (b <> 0x04 -> b <> 0x08 -> b <> 0x10 -> b <> 0x20 ->
   PMOD_BTN_Handler b s = s).
Proof.
  repeat split.
  intros H0 H1 H2 H3. unfold PMOD_BTN_Handler.
  split_tests; try contradiction; reflexivity.
Qed.

Lemma PMOD_BTN_Handler_mapping_witness :
  let s := mkState 3 50 2 10 1 1 0 [RGB_LED_GREEN] in
  PMOD_BTN_Handler 0x04 s = mkState 3 50 2 10 1 1 0 [RGB_LED_GREEN; RGB_LED_GREEN] /\
  PMOD_BTN_Handler 0x0C s = s /\
  PMOD_BTN_Handler 0xFF s = s.
Proof.
  cbv zeta. split; [ reflexivity | split ].
  - apply (PMOD_BTN_Handler_mapping
             (mkState 3 50 2 10 1 1 0 [RGB_LED_GREEN]) 0x0C); discriminate.
  - apply (PMOD_BTN_Handler_mapping
             (mkState 3 50 2 10 1 1 0 [RGB_LED_GREEN]) 0xFF); discriminate.
Defined.

(** C8: BTN0 (start) and BTN1 (stop) leave the four counters and
    [reset_stopwatch] as they were (and the selection counter too): only
    [start_stopwatch] and the LED change. *)
Theorem start_stop_frame (s : state) :
  let s1 := PMOD_BTN_Handler 0x04 s in
  let s2 := PMOD_BTN_Handler 0x08 s in
  (counters s1 = counters s /\ reset_stopwatch s1 = reset_stopwatch s /\
   counter s1 = counter s) /\
  (counters s2 = counters s /\ reset_stopwatch s2 = reset_stopwatch s /\
   counter s2 = counter s).
Proof.
  repeat split.
Qed.

(** ** Stopped stopwatch *)

Lemma tick_idle (s : state) :
  start_stopwatch s <> 1 -> reset_stopwatch s <> 1 ->
  Timer_0A_Periodic_Task s = s.
Proof.
  open_state s. intros Hst Hrs. run_handler.
  split_tests; try contradiction; reflexivity.
Qed.

Lemma ticks_idle (n : N) (s : state) :
  start_stopwatch s <> 1 -> reset_stopwatch s <> 1 -> ticks n s = s.
Proof.
  intros Hst Hrs. induction n as [ | n IH ] using N.peano_ind.
  - reflexivity.
  - rewrite ticks_succ, IH. apply tick_idle; assumption.
Qed.

(** C6, as the code has it: with [start_stopwatch] clear and no reset
    pending ([reset_stopwatch] clear), no number of timer interrupts changes
    any of the four counters. *)
Theorem stop_freezes_counters (n : N) (s : state) :
  start_stopwatch s = 0 -> reset_stopwatch s = 0 ->
  ms_elapsed (ticks n s) = ms_elapsed s /\
  milliseconds (ticks n s) = milliseconds s /\
  seconds (ticks n s) = seconds s /\
  minutes (ticks n s) = minutes s.
Proof.
  intros Hst Hrs. rewrite ticks_idle by lia. repeat split.
Qed.

Lemma stop_freezes_counters_witness :
  let s := mkState 0 50 2 10 1 0 0 [RGB_LED_RED; RGB_LED_GREEN] in
  ms_elapsed (ticks 1000 s) = 50 /\
  milliseconds (ticks 1000 s) = 2 /\
  seconds (ticks 1000 s) = 10 /\
  minutes (ticks 1000 s) = 1.
Proof.
  apply (stop_freezes_counters 1000
           (mkState 0 50 2 10 1 0 0 [RGB_LED_RED; RGB_LED_GREEN]));
    reflexivity.
Defined.

(** C6 without the second hypothesis fails: start, 250 timer interrupts,
    stop, reset gives a state with [start_stopwatch] clear and counters
    (50, 2, 0, 0); one more timer interrupt clears them. *)
Lemma stop_freezes_fails_with_pending_reset :
  let s := run (PMOD_BTN 0x04 :: repeat Timer_0A 250
                ++ [PMOD_BTN 0x08; PMOD_BTN 0x10]) init in
  start_stopwatch s = 0 /\
  counters s = (50, 2, 0, 0) /\
  counters (ticks 1 s) = (0, 0, 0, 0) /\
  counters (ticks 1 s) <> counters s.
Proof.
  vm_compute. repeat split. discriminate.
Qed.

(** ** Carries *)

(** C7: with [start_stopwatch] set and no reset pending, one timer
    interrupt carries in the order [ms_elapsed], [milliseconds], [seconds],
    [minutes]: each counter advances exactly when every counter below it
    rolled over in this same interrupt, and rolls over to 0 from its top
    value. From (99, 9, 59, 9) all four roll over and end at 0. *)
Theorem cascading_carries (s : state) :
  in_range s -> start_stopwatch s = 1 -> reset_stopwatch s = 0 ->
  let s' := Timer_0A_Periodic_Task s in
  let c1 := ms_elapsed s =? 99 in
  let c2 := c1 && (milliseconds s =? 9) in
  let c3 := c2 && (seconds s =? 59) in
  ms_elapsed s' = (if c1 then 0 else ms_elapsed s + 1) /\
  milliseconds s' =
    (if c1 then if milliseconds s =? 9 then 0 else milliseconds s + 1
     else milliseconds s) /\
  seconds s' =
    (if c2 then if seconds s =? 59 then 0 else seconds s + 1
     else seconds s) /\
  minutes s' =
    (if c3 then if minutes s =? 9 then 0 else minutes s + 1
     else minutes s) /\
  (counters s = (99, 9, 59, 9) -> counters s' = (0, 0, 0, 0)).
Proof.
  open_state s. run_handler. intros H -> ->.
  repeat split.
  5: { intros E. injection E as -> -> -> ->. reflexivity. }
  all: split_tests; try discriminate; cbn [andb]; split_tests; arith.
Qed.

Lemma cascading_carries_witness :
  let s := mkState 0 99 9 59 9 1 0 [RGB_LED_GREEN] in
  counters (Timer_0A_Periodic_Task s) = (0, 0, 0, 0).
Proof.
  apply (cascading_carries (mkState 0 99 9 59 9 1 0 [RGB_LED_GREEN]));
    try reflexivity.
  cbv. intuition discriminate.
Defined.

(** ** The display digits *)

Lemma to_uint8_id (z : Z) : is_uint8 z -> to_uint8 z = z.
Proof. intros H. unfold to_uint8, is_uint8 in *. apply Z.mod_small. lia. Qed.

(** C4: on a 4-element array [Calculate_Stopwatch_Value] always returns,
    leaves every global as it was, and fills the array with [milliseconds],
    [seconds mod 10], [seconds / 10], [minutes], in this order; for
    [milliseconds = 7], [seconds = 45], [minutes = 3] that is 7, 5, 4, 3. *)
Theorem Calculate_Stopwatch_Value_digits (s : state) (buf : list Z) :
  well_typed s -> length buf = 4%nat ->
  Calculate_Stopwatch_Value s buf =
    Some (s, [milliseconds s; seconds s mod 10; seconds s / 10; minutes s]) /\
  (milliseconds s = 7 -> seconds s = 45 -> minutes s = 3 ->
   Calculate_Stopwatch_Value s buf = Some (s, [7; 5; 4; 3])).
Proof.
  intros (_ & _ & Hms & Hsec & Hmin & _) Hlen.
  destruct buf as [ | b0 [ | b1 [ | b2 [ | b3 [ | b4 buf ] ] ] ] ];
    try discriminate Hlen.
  assert (E : Calculate_Stopwatch_Value s [b0; b1; b2; b3] =
              Some (s, [milliseconds s; seconds s mod 10; seconds s / 10; minutes s])).
  { unfold Calculate_Stopwatch_Value. cbn [store bind].
    unfold is_uint8 in *.
    rewrite Z.rem_mod_nonneg, Z.quot_div_nonneg by lia.
    rewrite !to_uint8_id; [ reflexivity | | | | ];
      unfold is_uint8; try lia; Z.div_mod_to_equations; lia. }
  split; [ exact E | ].
  intros E0 E1 E2. rewrite E, E0, E1, E2. reflexivity.
Qed.

Lemma Calculate_Stopwatch_Value_digits_witness :
  let s := mkState 0 31 7 45 3 1 0 [RGB_LED_GREEN] in
  Calculate_Stopwatch_Value s [0; 0; 0; 0] = Some (s, [7; 5; 4; 3]).
Proof.
  apply (Calculate_Stopwatch_Value_digits
           (mkState 0 31 7 45 3 1 0 [RGB_LED_GREEN]) [0; 0; 0; 0]);
    try reflexivity.
  cbv. intuition discriminate.
Defined.

(** ** The selection counter *)

Lemma handle_counter_range (s : state) (i : interrupt) :
  0 <= counter s <= 15 -> 0 <= counter (handle s i) <= 15.
Proof.
  destruct i as [ | b | b ]; open_state s; run_handler; intros H;
    split_tests; cbn; arith.
Qed.

Lemma run_counter_range (tr : list interrupt) :
  forall s, 0 <= counter s <= 15 -> 0 <= counter (run tr s) <= 15.
Proof.
  induction tr as [ | i tr IH ]; intros s H; cbn.
  - exact H.
  - apply IH, handle_counter_range, H.
Qed.

(** C9: [counter] starts at 0 and stays in [0, 15] under every sequence of
    interrupts; from a value in that range SW3 (0x08) takes 15 to 0 and
    otherwise adds 1, SW2 (0x04) takes 0 to 15 and otherwise subtracts 1;
    and no status byte makes [EduBase_Button_Handler] change a counter or a
    flag of the stopwatch. *)
Theorem selection_counter_wraps (tr : list interrupt) (s : state) (b : Z) :
  0 <= counter s <= 15 ->
  0 <= counter (run tr init) <= 15 /\
  0 <= counter (run tr s) <= 15 /\
  counter (EduBase_Button_Handler 0x08 s) =
    (if counter s =? 15 then 0 else counter s + 1) /\
  counter (EduBase_Button_Handler 0x04 s) =
    (if counter s =? 0 then 15 else counter s - 1) /\
  timekeeping (EduBase_Button_Handler b s) = timekeeping s.
Proof.
  intros H. split; [ | split ].
  - apply run_counter_range. cbn. lia.
  - apply run_counter_range, H.
  - split; [ | split ].
    + open_state s. run_handler. split_tests; cbn; arith.
    + open_state s. run_handler. split_tests; cbn; arith.
    + apply EduBase_Button_Handler_timekeeping.
Qed.

Lemma selection_counter_wraps_witness :
  let s := mkState 15 50 2 10 1 1 0 [RGB_LED_GREEN] in
  counter (EduBase_Button_Handler 0x08 s) = 0 /\
  counter (EduBase_Button_Handler 0x04 s) = 14 /\
  counter (EduBase_Button_Handler 0x04 init) = 15 /\
  timekeeping (EduBase_Button_Handler 0x08 s) = timekeeping s.
Proof.
  cbv zeta. split; [ | split; [ | split ] ].
  - apply (selection_counter_wraps [] (mkState 15 50 2 10 1 1 0 [RGB_LED_GREEN]) 0x08).
    cbn. lia.
  - apply (selection_counter_wraps [] (mkState 15 50 2 10 1 1 0 [RGB_LED_GREEN]) 0x08).
    cbn. lia.
  - apply (selection_counter_wraps [] init 0x04). cbn. lia.
  - apply (selection_counter_wraps [] (mkState 15 50 2 10 1 1 0 [RGB_LED_GREEN]) 0x08).
    cbn. lia.
Defined.

(** * Further properties of the handlers *)

(** ** Shared lemmas *)

Lemma state_eq (s s' : state) :
  counter s = counter s' -> counters s = counters s' ->
  start_stopwatch s = start_stopwatch s' ->
  reset_stopwatch s = reset_stopwatch s' ->
  rgb_led s = rgb_led s' -> s = s'.
Proof.
  destruct s, s'; unfold counters; cbn.
  intros -> E -> -> ->. injection E as -> -> -> ->. reflexivity.
Qed.

Lemma in_range_counters_digits (s : state) :
  in_range s -> counters s = digits_of (elapsed s).
Proof.
  intros H. destruct (in_range_digits s H) as (H1 & H2 & H3 & H4).
  unfold counters, digits_of. congruence.
Qed.

Lemma in_range_elapsed (s : state) :
  in_range s -> 0 <= elapsed s < 600000.
Proof. unfold in_range, elapsed. lia. Qed.

(** A timer interrupt that finds the reset flag set. *)
Lemma tick_reset (s : state) :
  reset_stopwatch s = 1 ->
  Timer_0A_Periodic_Task s =
    mkState (counter s) 0 0 0 0 0 0 (rgb_led s).
Proof.
  open_state s. intros ->. run_handler.
  split_tests; try contradiction; reflexivity.
Qed.

Lemma PMOD_BTN_Handler_start (s : state) :
  PMOD_BTN_Handler 0x04 s =
    mkState (counter s) (ms_elapsed s) (milliseconds s) (seconds s)
            (minutes s) 1 (reset_stopwatch s) (RGB_LED_GREEN :: rgb_led s).
Proof. reflexivity. Qed.

Lemma PMOD_BTN_Handler_stop (s : state) :
  PMOD_BTN_Handler 0x08 s =
    mkState (counter s) (ms_elapsed s) (milliseconds s) (seconds s)
            (minutes s) 0 (reset_stopwatch s) (RGB_LED_RED :: rgb_led s).
Proof. reflexivity. Qed.

Lemma PMOD_BTN_Handler_reset (s : state) :
  PMOD_BTN_Handler 0x10 s =
    mkState (counter s) (ms_elapsed s) (milliseconds s) (seconds s)
            (minutes s) (start_stopwatch s) 1 (RGB_LED_OFF :: rgb_led s).
Proof. reflexivity. Qed.

(** ** Counting while running *)

(** X1: while [start_stopwatch] is set and no reset is pending, [n] timer
    interrupts from counters in range add [n] to the time the counters
    show, modulo the 600000 interrupts of ten minutes, and change neither
    flag, nor [counter], nor the LED. *)
Theorem ticks_add_elapsed (n : N) (s : state) :
  in_range s -> start_stopwatch s = 1 -> reset_stopwatch s <> 1 ->
  let s' := ticks n s in
  counters s' = digits_of ((elapsed s + Z.of_N n) mod 600000) /\
  in_range s' /\
  start_stopwatch s' = 1 /\ reset_stopwatch s' = reset_stopwatch s /\
  counter s' = counter s /\ rgb_led s' = rgb_led s.
Proof.
  intros H Hst Hrs.
  destruct (ticks_running n s H Hst Hrs) as (Hr & He & Hrest).
  cbv zeta. split; [ | split; assumption ].
  rewrite <- He. apply in_range_counters_digits, Hr.
Qed.

Lemma ticks_add_elapsed_witness :
  let s := mkState 5 98 9 59 2 1 0 [RGB_LED_GREEN] in
  counters (ticks 3 s) = (1, 0, 0, 3) /\
  in_range (ticks 3 s) /\
  start_stopwatch (ticks 3 s) = 1 /\ reset_stopwatch (ticks 3 s) = 0 /\
  counter (ticks 3 s) = 5 /\ rgb_led (ticks 3 s) = [RGB_LED_GREEN].
Proof.
  apply (ticks_add_elapsed 3 (mkState 5 98 9 59 2 1 0 [RGB_LED_GREEN]));
    [ cbv; intuition discriminate | reflexivity | discriminate ].
Defined.

(** X2: the running stopwatch has period ten minutes: 600000 further timer
    interrupts bring back the very same state. *)
Theorem ticks_period (n : N) (s : state) :
  in_range s -> start_stopwatch s = 1 -> reset_stopwatch s <> 1 ->
  ticks (n + 600000) s = ticks n s.
Proof.
  intros H Hst Hrs.
  destruct (ticks_running n s H Hst Hrs) as (Hr & He & Hs & Hq & Hc & Hl).
  destruct (ticks_running (n + 600000) s H Hst Hrs)
    as (Hr' & He' & Hs' & Hq' & Hc' & Hl').
  apply state_eq; try congruence.
  rewrite (in_range_counters_digits _ Hr), (in_range_counters_digits _ Hr').
  f_equal. rewrite He, He', N2Z.inj_add.
  replace (elapsed s + (Z.of_N n + Z.of_N 600000))
    with (elapsed s + Z.of_N n + 1 * 600000) by lia.
  apply Z.mod_add. discriminate.
Qed.

Lemma ticks_period_witness :
  let s := mkState 5 98 9 59 2 1 0 [RGB_LED_GREEN] in
  ticks (7 + 600000) s = ticks 7 s.
Proof.
  apply (ticks_period 7 (mkState 5 98 9 59 2 1 0 [RGB_LED_GREEN]));
    [ cbv; intuition discriminate | reflexivity | discriminate ].
Defined.

(** X3: a pause loses and adds no time. From counters in range with no
    reset pending: start, [n] timer interrupts, stop, [k] timer interrupts,
    start, [m] timer interrupts shows the time advanced by [n + m]. *)
Theorem pause_resume_adds_up (n k m : N) (s : state) :
  in_range s -> reset_stopwatch s <> 1 ->
  let s1 := ticks n (PMOD_BTN_Handler 0x04 s) in
  let s2 := ticks k (PMOD_BTN_Handler 0x08 s1) in
  let s3 := ticks m (PMOD_BTN_Handler 0x04 s2) in
  counters s2 = counters s1 /\
  counters s3 = digits_of ((elapsed s + Z.of_N n + Z.of_N m) mod 600000).
Proof.
  intros H Hrs. cbv zeta.
  assert (H0 : in_range (PMOD_BTN_Handler 0x04 s))
    by (apply (in_range_counters s), H; apply PMOD_BTN_Handler_counters).
  destruct (ticks_running n (PMOD_BTN_Handler 0x04 s) H0 eq_refl Hrs)
    as (Hr1 & He1 & Hs1 & Hq1 & _).
  set (s1 := ticks n (PMOD_BTN_Handler 0x04 s)) in *.
  assert (Ef : ticks k (PMOD_BTN_Handler 0x08 s1) = PMOD_BTN_Handler 0x08 s1).
  { apply ticks_idle; rewrite PMOD_BTN_Handler_stop; cbn.
    - discriminate.
    - rewrite Hq1. exact Hrs. }
  rewrite Ef. split; [ apply PMOD_BTN_Handler_counters | ].
  set (s2 := PMOD_BTN_Handler 0x08 s1) in *.
  assert (H2 : in_range (PMOD_BTN_Handler 0x04 s2)).
  { apply (in_range_counters s1), Hr1.
    unfold s2. rewrite !PMOD_BTN_Handler_counters. reflexivity. }
  assert (Hq2 : reset_stopwatch (PMOD_BTN_Handler 0x04 s2) <> 1).
  { unfold s2. rewrite PMOD_BTN_Handler_start, PMOD_BTN_Handler_stop. cbn.
    rewrite Hq1. exact Hrs. }
  destruct (ticks_running m (PMOD_BTN_Handler 0x04 s2) H2 eq_refl Hq2)
    as (Hr3 & He3 & _).
  rewrite (in_range_counters_digits _ Hr3), He3. f_equal.
  assert (E2 : elapsed (PMOD_BTN_Handler 0x04 s2) = elapsed s1) by reflexivity.
  assert (E0 : elapsed (PMOD_BTN_Handler 0x04 s) = elapsed s) by reflexivity.
  rewrite E2, He1, E0. rewrite Zplus_mod_idemp_l. reflexivity.
Qed.

Lemma pause_resume_adds_up_witness :
  let s := mkState 0 50 2 10 1 0 0 [RGB_LED_RED] in
  let s1 := ticks 60 (PMOD_BTN_Handler 0x04 s) in
  let s2 := ticks 1000 (PMOD_BTN_Handler 0x08 s1) in
  let s3 := ticks 40 (PMOD_BTN_Handler 0x04 s2) in
  counters s2 = counters s1 /\ counters s3 = (50, 3, 10, 1).
Proof.
  apply (pause_resume_adds_up 60 1000 40 (mkState 0 50 2 10 1 0 0 [RGB_LED_RED]));
    [ cbv; intuition discriminate | discriminate ].
Defined.

(** X4: from any state at all, reset, one timer interrupt and start make
    the stopwatch count from zero: [n] timer interrupts later the counters
    show [n] modulo ten minutes. *)
Theorem reset_start_counts_from_zero (n : N) (s : state) :
  let s0 := PMOD_BTN_Handler 0x04
              (Timer_0A_Periodic_Task (PMOD_BTN_Handler 0x10 s)) in
  counters s0 = (0, 0, 0, 0) /\
  counters (ticks n s0) = digits_of (Z.of_N n mod 600000).
Proof.
  cbv zeta. rewrite (tick_reset (PMOD_BTN_Handler 0x10 s)) by reflexivity.
  split; [ reflexivity | ].
  apply ticks_from_zero; [ reflexivity | reflexivity | discriminate ].
Qed.

(** ** What the buttons can and cannot do *)

Lemma handle_not_started (s : state) (i : interrupt) :
  i <> PMOD_BTN 0x04 ->
  counters s = (0, 0, 0, 0) /\ start_stopwatch s = 0 ->
  counters (handle s i) = (0, 0, 0, 0) /\ start_stopwatch (handle s i) = 0.
Proof.
  intros Hi (Hc & Hs). open_state s. unfold counters in Hc.
  injection Hc as -> -> -> ->. subst st.
  destruct i as [ | b | b ]; cbn [handle]; run_handler;
    split_tests; try discriminate; try (split; reflexivity).
  subst b. contradiction.
Qed.

(** X5: the stopwatch never leaves zero before BTN0 (start) is pressed:
    after any sequence of interrupts from the initial state that holds no
    BTN0 press, the four counters are 0 and [start_stopwatch] is clear. *)
Theorem never_started_stays_zero (tr : list interrupt) :
  ~ In (PMOD_BTN 0x04) tr ->
  counters (run tr init) = (0, 0, 0, 0) /\
  start_stopwatch (run tr init) = 0.
Proof.
  assert (G : forall s, ~ In (PMOD_BTN 0x04) tr ->
              counters s = (0, 0, 0, 0) /\ start_stopwatch s = 0 ->
              counters (run tr s) = (0, 0, 0, 0) /\
              start_stopwatch (run tr s) = 0).
  { induction tr as [ | i tr IH ]; intros s Hn Hs; cbn.
    - exact Hs.
    - apply IH.
      + intros Hin. apply Hn. right. exact Hin.
      + apply handle_not_started; [ | exact Hs ].
        intros ->. apply Hn. left. reflexivity. }
  intros Hn. apply G; [ exact Hn | split; reflexivity ].
Qed.

Lemma never_started_stays_zero_witness :
  let tr := [Timer_0A; PMOD_BTN 0x08; Timer_0A; PMOD_BTN 0x10;
             EduBase_Button 0x08; Timer_0A; PMOD_BTN 0x20; Timer_0A] in
  counters (run tr init) = (0, 0, 0, 0) /\
  start_stopwatch (run tr init) = 0.
Proof.
  apply (never_started_stays_zero
           [Timer_0A; PMOD_BTN 0x08; Timer_0A; PMOD_BTN 0x10;
            EduBase_Button 0x08; Timer_0A; PMOD_BTN 0x20; Timer_0A]).
  cbn. intuition discriminate.
Defined.

Lemma handle_keeps_reset (s : state) (i : interrupt) :
  is_Timer_0A i = false -> reset_stopwatch s = 1 ->
  reset_stopwatch (handle s i) = 1.
Proof.
  open_state s. intros Hi ->.
  destruct i as [ | b | b ]; try discriminate Hi; cbn [handle]; run_handler;
    split_tests; reflexivity.
Qed.

(** X6: a requested reset cannot be taken back: whatever buttons are
    pressed after BTN2 and before the next timer interrupt, that interrupt
    clears the four counters and both flags. *)
Theorem pending_reset_cannot_be_cancelled (tr : list interrupt) (s : state) :
  forallb (fun i => negb (is_Timer_0A i)) tr = true ->
  let s' := Timer_0A_Periodic_Task (run tr (PMOD_BTN_Handler 0x10 s)) in
  counters s' = (0, 0, 0, 0) /\
  start_stopwatch s' = 0 /\ reset_stopwatch s' = 0.
Proof.
  intros Htr. cbv zeta.
  assert (G : forall s0, reset_stopwatch s0 = 1 ->
              reset_stopwatch (run tr s0) = 1).
  { induction tr as [ | i tr IH ]; intros s0 H0; cbn.
    - exact H0.
    - cbn in Htr. apply andb_prop in Htr. destruct Htr as (Hi & Htr).
      apply IH; [ exact Htr | ].
      apply handle_keeps_reset; [ | exact H0 ].
      destruct (is_Timer_0A i); [ discriminate Hi | reflexivity ]. }
  rewrite tick_reset by (apply G; reflexivity).
  repeat split.
Qed.

Lemma pending_reset_cannot_be_cancelled_witness :
  let s := mkState 3 50 2 10 1 1 0 [RGB_LED_GREEN] in
  let tr := [PMOD_BTN 0x08; PMOD_BTN 0x04; EduBase_Button 0x04; PMOD_BTN 0x20] in
  let s' := Timer_0A_Periodic_Task (run tr (PMOD_BTN_Handler 0x10 s)) in
  counters s' = (0, 0, 0, 0) /\
  start_stopwatch s' = 0 /\ reset_stopwatch s' = 0.
Proof.
  apply (pending_reset_cannot_be_cancelled
           [PMOD_BTN 0x08; PMOD_BTN 0x04; EduBase_Button 0x04; PMOD_BTN 0x20]
           (mkState 3 50 2 10 1 1 0 [RGB_LED_GREEN])).
  reflexivity.
Defined.

(** ** The LED against the flags *)

(** What the last colour written says about the flags and counters. *)
Lemma handle_led_flags (s : state) (i : interrupt) :
  let P := fun s =>
    (start_stopwatch s = 0 \/ start_stopwatch s = 1) /\
    (reset_stopwatch s = 0 \/ reset_stopwatch s = 1) /\
    match rgb_led s with
    | [] => timekeeping s = (0, 0, 0, 0, 0, 0)
    | RGB_LED_RED :: _ => start_stopwatch s = 0
    | RGB_LED_OFF :: _ => reset_stopwatch s = 1 \/ start_stopwatch s = 0
    | RGB_LED_GREEN :: _ => True
    end in
  P s -> P (handle s i).
Proof.
  cbv zeta. open_state s. intros (Hst & Hrs & Hled).
  destruct i as [ | b | b ]; cbn [handle]; run_handler.
  - destruct Hst as [-> | ->]; destruct Hrs as [-> | ->];
      destruct led as [ | [ | | ] led ];
      try (injection Hled as -> -> -> ->);
      split_tests; try discriminate; cbn; intuition (try discriminate; auto).
  - split_tests; cbn; intuition (try discriminate; auto).
  - split_tests; cbn; intuition (try discriminate; auto).
Qed.

(** X7: in every state reached from the initial one, both flags are 0 or 1;
    while the LED shows red [start_stopwatch] is clear; while it shows off
    a reset is pending or [start_stopwatch] is clear; and while nothing
    has been written to it the counters and flags are still all 0. *)
Theorem indicator_consistent (tr : list interrupt) :
  let s := run tr init in
  (start_stopwatch s = 0 \/ start_stopwatch s = 1) /\
  (reset_stopwatch s = 0 \/ reset_stopwatch s = 1) /\
  (indicator s = Some RGB_LED_RED -> start_stopwatch s = 0) /\
  (indicator s = Some RGB_LED_OFF ->
   reset_stopwatch s = 1 \/ start_stopwatch s = 0) /\
  (indicator s = None -> timekeeping s = (0, 0, 0, 0, 0, 0)).
Proof.
  cbv zeta.
  assert (G : forall s,
    ((start_stopwatch s = 0 \/ start_stopwatch s = 1) /\
     (reset_stopwatch s = 0 \/ reset_stopwatch s = 1) /\
     match rgb_led s with
     | [] => timekeeping s = (0, 0, 0, 0, 0, 0)
     | RGB_LED_RED :: _ => start_stopwatch s = 0
     | RGB_LED_OFF :: _ => reset_stopwatch s = 1 \/ start_stopwatch s = 0
     | RGB_LED_GREEN :: _ => True
     end) ->
    ((start_stopwatch (run tr s) = 0 \/ start_stopwatch (run tr s) = 1) /\
     (reset_stopwatch (run tr s) = 0 \/ reset_stopwatch (run tr s) = 1) /\
     match rgb_led (run tr s) with
     | [] => timekeeping (run tr s) = (0, 0, 0, 0, 0, 0)
     | RGB_LED_RED :: _ => start_stopwatch (run tr s) = 0
     | RGB_LED_OFF :: _ =>
         reset_stopwatch (run tr s) = 1 \/ start_stopwatch (run tr s) = 0
     | RGB_LED_GREEN :: _ => True
     end)).
  { induction tr as [ | i tr IH ]; intros s H; cbn [run fold_left].
    - exact H.
    - apply IH. apply (handle_led_flags s i H). }
  destruct (G init) as (Hst & Hrs & Hled).
  { cbn. auto. }
  unfold indicator.
  destruct (rgb_led (run tr init)) as [ | [ | | ] led ]; cbn;
    repeat split; try assumption; try discriminate; auto.
Qed.

Lemma indicator_consistent_witness :
  let s := run [PMOD_BTN 0x04; Timer_0A; PMOD_BTN 0x08; Timer_0A] init in
  indicator s = Some RGB_LED_RED /\ start_stopwatch s = 0.
Proof.
  cbv zeta. split; [ reflexivity | ].
  apply (indicator_consistent [PMOD_BTN 0x04; Timer_0A; PMOD_BTN 0x08; Timer_0A]).
  reflexivity.
Defined.

(** X8: the LED can show the running colour on a stopped stopwatch, and
    stays wrong: after BTN2, BTN0 and one timer interrupt the LED shows
    green while [start_stopwatch] is clear, and no number of further timer
    interrupts changes anything. *)
Theorem green_while_stopped (n : N) (s : state) :
  let s' := Timer_0A_Periodic_Task
              (PMOD_BTN_Handler 0x04 (PMOD_BTN_Handler 0x10 s)) in
  indicator s' = Some RGB_LED_GREEN /\
  start_stopwatch s' = 0 /\
  counters s' = (0, 0, 0, 0) /\
  ticks n s' = s'.
Proof.
  cbv zeta.
  rewrite (tick_reset (PMOD_BTN_Handler 0x04 (PMOD_BTN_Handler 0x10 s)))
    by reflexivity.
  repeat split. apply ticks_idle; discriminate.
Qed.

(** ** The selection counter and the stopwatch do not interact *)

Lemma handle_counter_only (s s' : state) (i : interrupt) :
  counter s = counter s' ->
  counter (handle s i) =
  counter (if is_EduBase_Button i then handle s' i else s').
Proof.
  open_state s. destruct s' as [c' e' ms' sec' mi' st' rs' led']. cbn.
  intros ->.
  destruct i as [ | b | b ]; cbn [handle is_EduBase_Button]; run_handler;
    split_tests; reflexivity.
Qed.

Lemma handle_stopwatch_only (s s' : state) (i : interrupt) :
  timekeeping s = timekeeping s' -> rgb_led s = rgb_led s' ->
  let r := if is_EduBase_Button i then s' else handle s' i in
  timekeeping (handle s i) = timekeeping r /\
  rgb_led (handle s i) = rgb_led r.
Proof.
  open_state s. destruct s' as [c' e' ms' sec' mi' st' rs' led'].
  unfold timekeeping. cbn.
  intros E ->. injection E as -> -> -> -> -> ->.
  destruct i as [ | b | b ]; cbn [handle is_EduBase_Button]; run_handler;
    split_tests; split; reflexivity.
Qed.

(** X9: [counter] is decided by the EduBase button interrupts alone, and
    the stopwatch (counters, flags, LED) by the other interrupts alone:
    dropping the other kind from any sequence of interrupts changes
    neither. *)
Theorem selection_counter_independent (tr : list interrupt) (s : state) :
  counter (run tr s) = counter (run (filter is_EduBase_Button tr) s) /\
  timekeeping (run tr s) =
    timekeeping (run (filter (fun i => negb (is_EduBase_Button i)) tr) s) /\
  rgb_led (run tr s) =
    rgb_led (run (filter (fun i => negb (is_EduBase_Button i)) tr) s).
Proof.
  split.
  - assert (G : forall s s', counter s = counter s' ->
                counter (run tr s) =
                counter (run (filter is_EduBase_Button tr) s')).
    { induction tr as [ | i tr IH ]; intros s1 s2 E; cbn.
      - exact E.
      - pose proof (handle_counter_only s1 s2 i E) as H.
        destruct (is_EduBase_Button i); cbn; apply IH; exact H. }
    apply G. reflexivity.
  - assert (G : forall s s',
                timekeeping s = timekeeping s' -> rgb_led s = rgb_led s' ->
                timekeeping (run tr s) =
                  timekeeping (run (filter (fun i => negb (is_EduBase_Button i)) tr) s') /\
                rgb_led (run tr s) =
                  rgb_led (run (filter (fun i => negb (is_EduBase_Button i)) tr) s')).
    { induction tr as [ | i tr IH ]; intros s1 s2 E El; cbn.
      - split; assumption.
      - destruct (handle_stopwatch_only s1 s2 i E El) as (H1 & H2).
        destruct (is_EduBase_Button i); cbn; apply IH; assumption. }
    apply G; reflexivity.
Qed.

(** ** The selection counter as a counter modulo 16 *)

(** X10: on a value in [0, 15] the two EduBase buttons undo each other:
    SW3 then SW2, and SW2 then SW3, give back the state they started
    from. *)
Theorem EduBase_buttons_inverse (s : state) :
  0 <= counter s <= 15 ->
  EduBase_Button_Handler 0x04 (EduBase_Button_Handler 0x08 s) = s /\
  EduBase_Button_Handler 0x08 (EduBase_Button_Handler 0x04 s) = s.
Proof.
  open_state s. intros H. run_handler.
  split; split_tests; f_equal; arith.
Qed.

Lemma EduBase_buttons_inverse_witness :
  let s := mkState 15 50 2 10 1 1 0 [RGB_LED_GREEN] in
  EduBase_Button_Handler 0x04 (EduBase_Button_Handler 0x08 s) = s /\
  EduBase_Button_Handler 0x08 (EduBase_Button_Handler 0x04 s) = s.
Proof.
  apply (EduBase_buttons_inverse (mkState 15 50 2 10 1 1 0 [RGB_LED_GREEN])).
  cbn. lia.
Defined.

Lemma presses_succ (b : Z) (n : N) (s : state) :
  presses b (N.succ n) s = EduBase_Button_Handler b (presses b n s).
Proof. unfold presses. apply N.iter_succ. Qed.

(** X11: from a value in [0, 15], [n] presses of SW3 leave
    [(counter + n) mod 16] and [n] presses of SW2 leave
    [(counter - n) mod 16]; so 16 presses of either give back the value. *)
Theorem presses_mod_16 (n : N) (s : state) :
  0 <= counter s <= 15 ->
  counter (presses 0x08 n s) = (counter s + Z.of_N n) mod 16 /\
  counter (presses 0x04 n s) = (counter s - Z.of_N n) mod 16 /\
  counter (presses 0x08 16 s) = counter s /\
  counter (presses 0x04 16 s) = counter s.
Proof.
  intros H. set (c := counter s) in *.
  assert (Up : forall k, counter (presses 0x08 k s) = (c + Z.of_N k) mod 16).
  { induction k as [ | k IH ] using N.peano_ind.
    - cbn. fold c. Z.div_mod_to_equations. lia.
    - rewrite presses_succ, N2Z.inj_succ.
      revert IH. generalize (presses 0x08 k s). intros s0 IH.
      destruct s0 as [c0 e0 ms0 sec0 mi0 st0 rs0 led0]. cbn in IH.
      clearbody c. run_handler. split_tests; arith. }
  assert (Down : forall k, counter (presses 0x04 k s) = (c - Z.of_N k) mod 16).
  { induction k as [ | k IH ] using N.peano_ind.
    - cbn. fold c. Z.div_mod_to_equations. lia.
    - rewrite presses_succ, N2Z.inj_succ.
      revert IH. generalize (presses 0x04 k s). intros s0 IH.
      destruct s0 as [c0 e0 ms0 sec0 mi0 st0 rs0 led0]. cbn in IH.
      clearbody c. run_handler. split_tests; arith. }
  repeat split.
  - apply Up.
  - apply Down.
  - rewrite Up. change (Z.of_N 16) with (1 * 16).
    rewrite Z.mod_add by discriminate. apply Z.mod_small. lia.
  - rewrite Down. replace (c - Z.of_N 16) with (c + (-1) * 16) by lia.
    rewrite Z.mod_add by discriminate. apply Z.mod_small. lia.
Qed.

Lemma presses_mod_16_witness :
  let s := mkState 14 50 2 10 1 1 0 [RGB_LED_GREEN] in
  counter (presses 0x08 5 s) = 3 /\
  counter (presses 0x04 5 s) = 9 /\
  counter (presses 0x08 16 s) = 14 /\
  counter (presses 0x04 16 s) = 14.
Proof.
  apply (presses_mod_16 5 (mkState 14 50 2 10 1 1 0 [RGB_LED_GREEN])).
  cbn. lia.
Defined.

(** ** What reaches the display *)

(** The array after the four stores, for variables that hold [uint8_t]
    values; elements past the fourth are not touched. *)
Lemma Calculate_Stopwatch_Value_stores (s : state) (b0 b1 b2 b3 : Z) (rest : list Z) :
  is_uint8 (milliseconds s) -> is_uint8 (seconds s) -> is_uint8 (minutes s) ->
  Calculate_Stopwatch_Value s (b0 :: b1 :: b2 :: b3 :: rest) =
    Some (s, milliseconds s :: seconds s mod 10 :: seconds s / 10
             :: minutes s :: rest).
Proof.
  intros Hms Hsec Hmin.
  unfold Calculate_Stopwatch_Value. cbn [store bind].
  unfold is_uint8 in *.
  rewrite Z.rem_mod_nonneg, Z.quot_div_nonneg by lia.
  rewrite !to_uint8_id; [ reflexivity | | | | ];
    unfold is_uint8; try lia; Z.div_mod_to_equations; lia.
Qed.

Lemma in_range_uint8 (s : state) :
  in_range s ->
  is_uint8 (milliseconds s) /\ is_uint8 (seconds s) /\ is_uint8 (minutes s).
Proof. unfold in_range, is_uint8. lia. Qed.



(** X13: in every state reached from the initial one the four values
    written to the array are display digits: each is in [0, 9], the tens of
    seconds in [0, 5]; and they give back the stopwatch value:
    [seconds = 10 * a[2] + a[1]]. *)
Theorem display_digits_in_range (tr : list interrupt) (buf : list Z) :
  length buf = 4%nat ->
  let s := run tr init in
  exists d0 d1 d2 d3,
    Calculate_Stopwatch_Value s buf = Some (s, [d0; d1; d2; d3]) /\
    0 <= d0 <= 9 /\ 0 <= d1 <= 9 /\ 0 <= d2 <= 5 /\ 0 <= d3 <= 9 /\
    milliseconds s = d0 /\ seconds s = 10 * d2 + d1 /\ minutes s = d3.
Proof.
  intros Hlen. cbv zeta.
  destruct buf as [ | b0 [ | b1 [ | b2 [ | b3 [ | b4 buf ] ] ] ] ];
    try discriminate Hlen.
  assert (Hr : in_range (run tr init))
    by (apply run_in_range; cbv; intuition discriminate).
  destruct (in_range_uint8 _ Hr) as (H1 & H2 & H3).
  exists (milliseconds (run tr init)), (seconds (run tr init) mod 10),
         (seconds (run tr init) / 10), (minutes (run tr init)).
  split; [ apply Calculate_Stopwatch_Value_stores; assumption | ].
  unfold in_range in Hr. repeat split; try lia; Z.div_mod_to_equations; lia.
Qed.

Lemma display_digits_in_range_witness :
  let s := run [PMOD_BTN 0x04; Timer_0A; Timer_0A] init in
  exists d0 d1 d2 d3,
    Calculate_Stopwatch_Value s [0; 0; 0; 0] = Some (s, [d0; d1; d2; d3]) /\
    0 <= d0 <= 9 /\ 0 <= d1 <= 9 /\ 0 <= d2 <= 5 /\ 0 <= d3 <= 9 /\
    milliseconds s = d0 /\ seconds s = 10 * d2 + d1 /\ minutes s = d3.
Proof.
  apply (display_digits_in_range [PMOD_BTN 0x04; Timer_0A; Timer_0A] [0; 0; 0; 0]).
  reflexivity.
Defined.

(** X14: [n] timer interrupts after the first press of BTN0 the array
    holds the decimal digits of the elapsed time: tenths of a second,
    seconds, tens of seconds modulo 6, minutes modulo 10. *)
Theorem display_after_ticks (n : N) (buf : list Z) :
  length buf = 4%nat ->
  let s := ticks n (PMOD_BTN_Handler 0x04 init) in
  let t := Z.of_N n in
  Calculate_Stopwatch_Value s buf =
    Some (s, [(t / 100) mod 10; (t / 1000) mod 10;
              (t / 10000) mod 6; (t / 60000) mod 10]).
Proof.
  intros Hlen. cbv zeta.
  destruct buf as [ | b0 [ | b1 [ | b2 [ | b3 [ | b4 buf ] ] ] ] ];
    try discriminate Hlen.
  set (s0 := PMOD_BTN_Handler 0x04 init).
  assert (Hr0 : in_range s0) by (cbv; intuition discriminate).
  assert (Hq0 : reset_stopwatch s0 <> 1) by discriminate.
  destruct (ticks_running n s0 Hr0 eq_refl Hq0) as (Hr & He & _).
  destruct (in_range_uint8 _ Hr) as (H1 & H2 & H3).
  rewrite Calculate_Stopwatch_Value_stores by assumption.
  destruct (in_range_digits _ Hr) as (_ & D2 & D3 & D4).
  change (elapsed s0) with 0 in He.
  rewrite D2, D3, D4, He.
  pose proof (N2Z.is_nonneg n) as Hn.
  generalize dependent (Z.of_N n). intros t _ Hn.
  assert (A1 : ((0 + t) mod 600000 / 100) mod 10 = (t / 100) mod 10)
    by (Z.div_mod_to_equations; lia).
  assert (A2 : (((0 + t) mod 600000 / 1000) mod 60) mod 10 = (t / 1000) mod 10)
    by (Z.div_mod_to_equations; lia).
  assert (A3 : (((0 + t) mod 600000 / 1000) mod 60) / 10 = (t / 10000) mod 6)
    by (Z.div_mod_to_equations; lia).
  assert (A4 : ((0 + t) mod 600000 / 60000) mod 10 = (t / 60000) mod 10)
    by (Z.div_mod_to_equations; lia).
  rewrite A1, A2, A3, A4. reflexivity.
Qed.

Lemma display_after_ticks_witness :
  let s := ticks 754321 (PMOD_BTN_Handler 0x04 init) in
  Calculate_Stopwatch_Value s [0; 0; 0; 0] = Some (s, [3; 4; 3; 2]).
Proof.
  apply (display_after_ticks 754321 [0; 0; 0; 0]). reflexivity.
Defined.

(** ** The main loop *)

Lemma run_app (tr1 tr2 : list interrupt) (s : state) :
  run (tr1 ++ tr2) s = run tr2 (run tr1 s).
Proof. unfold run. apply fold_left_app. Qed.

Lemma main_loop_invariant (trs : list (list interrupt)) :
  forall m,
    in_range (globals m) -> length (stopwatch_value m) = 4%nat ->
    Forall valid_frame (display m) ->
    exists m',
      main_loop trs m = Some m' /\
      globals m' = run (concat trs) (globals m) /\
      length (stopwatch_value m') = 4%nat /\
      length (display m') = (length trs + length (display m))%nat /\
      Forall valid_frame (display m').
Proof.
  induction trs as [ | tr trs IH ]; intros m Hr Hlen Hd.
  - exists m. cbn. repeat split; assumption.
  - destruct m as [s a d]. cbn in Hr, Hlen, Hd.
    destruct a as [ | b0 [ | b1 [ | b2 [ | b3 [ | b4 a ] ] ] ] ];
      try discriminate Hlen.
    assert (Hr1 : in_range (run tr s)) by (apply run_in_range, Hr).
    destruct (in_range_uint8 _ Hr1) as (H1 & H2 & H3).
    cbn [main_loop]. unfold main_loop_body, preempt.
    cbn [globals stopwatch_value display].
    rewrite Calculate_Stopwatch_Value_stores by assumption.
    cbn [bind fst snd]. unfold Seven_Segment_Display_Stopwatch.
    cbn [globals stopwatch_value display].
    match goal with
    | |- exists m', main_loop trs ?m1 = _ /\ _ => destruct (IH m1) as (m' & E & G & L & D & F)
    end.
    + exact Hr1.
    + reflexivity.
    + cbn [display]. constructor; [ | exact Hd ].
      unfold in_range in Hr1. cbn.
      Z.div_mod_to_equations. lia.
    + exists m'. cbn [globals display] in G, D.
      repeat split; try assumption.
      * cbn [concat]. rewrite run_app. exact G.
      * rewrite D. cbn [length]. lia.
Qed.

(** X15: the loop of [main] never writes outside its array and never shows
    a wrong digit: whatever interrupts arrive between iterations, every
    prefix of the loop completes, has handed the display one frame per
    iteration, and each frame is four digits in range ([0, 9], the tens of
    seconds in [0, 5]). *)
Theorem main_loop_frames (trs : list (list interrupt)) :
  exists m,
    main_loop trs main_init = Some m /\
    globals m = run (concat trs) init /\
    length (stopwatch_value m) = 4%nat /\
    length (display m) = length trs /\
    Forall valid_frame (display m).
Proof.
  destruct (main_loop_invariant trs main_init) as (m & E & G & L & D & F).
  - cbv. intuition discriminate.
  - reflexivity.
  - constructor.
  - exists m. cbn in G, D. rewrite Nat.add_0_r in D.
    repeat split; assumption.
Qed.

(** ** Interrupts inside Calculate_Stopwatch_Value *)

(** X16: the array is not a snapshot when a timer interrupt falls between
    the first two statements of [Calculate_Stopwatch_Value] and carries
    into [seconds]: the array keeps the old tenths digit 9 beside the new
    seconds and minutes, which is the stopwatch value neither before nor
    after the interrupt. *)
Theorem torn_display_value (s : state) (buf : list Z) :
  in_range s -> start_stopwatch s = 1 -> reset_stopwatch s <> 1 ->
  ms_elapsed s = 99 -> milliseconds s = 9 -> length buf = 4%nat ->
  let s' := Timer_0A_Periodic_Task s in
  let a := [9; seconds s' mod 10; seconds s' / 10; minutes s'] in
  Calculate_Stopwatch_Value_preempted [Timer_0A] [] [] s buf = Some (s', a) /\
  Calculate_Stopwatch_Value s buf <> Some (s, a) /\
  Calculate_Stopwatch_Value s' buf <> Some (s', a).
Proof.
  intros Hr Hst Hrs He Hms Hlen. cbv zeta.
  destruct buf as [ | b0 [ | b1 [ | b2 [ | b3 [ | b4 buf ] ] ] ] ];
    try discriminate Hlen.
  pose proof (Timer_0A_Periodic_Task_in_range s Hr) as Hr'.
  destruct (in_range_uint8 _ Hr) as (H1 & H2 & H3).
  destruct (in_range_uint8 _ Hr') as (H1' & H2' & H3').
  rewrite !Calculate_Stopwatch_Value_stores by assumption.
  unfold Calculate_Stopwatch_Value_preempted.
  cbn [store bind run fold_left handle].
  set (s' := Timer_0A_Periodic_Task s) in *.
  unfold is_uint8 in *.
  rewrite Z.rem_mod_nonneg, Z.quot_div_nonneg by lia.
  rewrite Hms.
  rewrite !to_uint8_id
    by (unfold is_uint8; try lia; Z.div_mod_to_equations; lia).
  split; [ reflexivity | ].
  assert (Hsec : seconds s' = (seconds s + 1) mod 60 /\ milliseconds s' = 0).
  { subst s'. open_state s. subst e ms st. revert Hr. run_handler. intros Hr.
    split_tests; try contradiction; split; arith. }
  destruct Hsec as (Hsec & Hms').
  split; intros E.
  - apply (f_equal (fun r => match r with
                             | Some (_, l) => nth 1 l 0
                             | None => 0
                             end)) in E.
    cbn [nth] in E. unfold in_range in Hr. rewrite Hsec in E.
    revert E. Z.div_mod_to_equations. lia.
  - apply (f_equal (fun r => match r with
                             | Some (_, l) => nth 0 l 0
                             | None => 0
                             end)) in E.
    cbn [nth] in E. rewrite Hms' in E. discriminate E.
Qed.

Lemma torn_display_value_witness :
  let s := mkState 0 99 9 59 2 1 0 [RGB_LED_GREEN] in
  Calculate_Stopwatch_Value_preempted [Timer_0A] [] [] s [0; 0; 0; 0] =
    Some (Timer_0A_Periodic_Task s, [9; 0; 0; 3]) /\
  Calculate_Stopwatch_Value s [0; 0; 0; 0] <> Some (s, [9; 0; 0; 3]) /\
  Calculate_Stopwatch_Value (Timer_0A_Periodic_Task s) [0; 0; 0; 0] <>
    Some (Timer_0A_Periodic_Task s, [9; 0; 0; 3]).
Proof.
  apply (torn_display_value (mkState 0 99 9 59 2 1 0 [RGB_LED_GREEN]) [0; 0; 0; 0]);
    try reflexivity; [ cbv; intuition discriminate | discriminate ].
Defined.

(** ** The handlers implement the reference stopwatch *)

Lemma handle_shows (s : state) (a : stopwatch) (i : interrupt) :
  shows s a -> shows (handle s i) (stopwatch_step a i).
Proof.
  intros (Hr & He & Hst & Hrs).
  destruct a as [t run pend]. cbn [time running reset_pending] in *.
  destruct i as [ | b | b ]; cbn [handle stopwatch_step reset_pending running time].
  - destruct pend; cbn [Z.b2z] in Hrs.
    + rewrite tick_reset by exact Hrs.
      unfold shows. cbv. intuition discriminate.
    + destruct run; cbn [Z.b2z] in Hst.
      * assert (Hq : reset_stopwatch s <> 1) by lia.
        destruct (tick_running s Hr Hst Hq) as (Hr' & He' & Hs' & Hq' & _).
        unfold shows. cbn [time running reset_pending Z.b2z].
        repeat split; try apply Hr'; congruence.
      * rewrite tick_idle by lia.
        unfold shows. cbn [time running reset_pending Z.b2z]. auto.
  - open_state s. revert Hr He. unfold shows. run_handler. intros Hr He.
    cbn [elapsed] in *.
    split_tests; cbn [time running reset_pending Z.b2z]; auto.
  - open_state s. revert Hr He. unfold shows. run_handler. intros Hr He.
    split_tests; cbn [time running reset_pending Z.b2z]; auto.
Qed.

(** X17: the code implements a stopwatch that counts timer periods modulo
    ten minutes. After any sequence of interrupts from the initial state
    the counters are the digits of the reference stopwatch's time and the
    two flags are its running and reset-pending bits. *)
Theorem implements_reference_stopwatch (tr : list interrupt) :
  let s := run tr init in
  let a := stopwatch_run tr (mkStopwatch 0 false false) in
  counters s = digits_of (time a) /\
  0 <= time a < 600000 /\
  start_stopwatch s = Z.b2z (running a) /\
  reset_stopwatch s = Z.b2z (reset_pending a).
Proof.
  cbv zeta.
  assert (G : forall s a, shows s a -> shows (run tr s) (stopwatch_run tr a)).
  { induction tr as [ | i tr IH ]; intros s a H; cbn.
    - exact H.
    - apply IH, handle_shows, H. }
  destruct (G init (mkStopwatch 0 false false)) as (Hr & He & Hst & Hrs).
  { unfold shows. cbv. intuition discriminate. }
  repeat split; try assumption.
  - rewrite <- He. apply in_range_counters_digits, Hr.
  - rewrite <- He. apply in_range_elapsed, Hr.
  - rewrite <- He. apply in_range_elapsed, Hr.
Qed.
